(** * headway: progress tracker, moving average and progress bar

    A shallow embedding of the Go packages [ewma], [tracker] and [probar] of
    itchio/headway, and the properties of them that the specification states.

    Conventions of the embedding:
    - a method with a pointer receiver that mutates its receiver is a function
      returning the new receiver; the receiver is the last argument;
    - a [sync.Mutex] held for a whole method body makes that body one atomic
      step: a locked method is one function application;
    - every reading of the clock ([time.Now], [time.Since]) is an explicit
      argument, in the order the code reads it;
    - [float64] is reached through the interface [Float64], which has two
      instances: [IEEE], the binary64 arithmetic Go computes with, and [Exact],
      the real numbers, its idealisation without rounding, infinities or NaN.
      A definition is written once, over the interface. [IEEE] rounds every
      operation on its own (no fused multiply-add) and converts a float64
      outside the range of int64 as amd64 does. *)

From Stdlib Require Import ZArith List Bool String Lia.
From Stdlib Require Import Floats.
From Stdlib Require Uint63.
From Stdlib Require Import Reals Lra.
Import ListNotations.

Set Implicit Arguments.
(* Decimal literals such as 0.3 denote the nearest binary64 value, as in Go. *)
Set Warnings "-inexact-float".
Local Open Scope Z_scope.

(** ** int64 *)

Module Int64.

Definition min : Z := - 2 ^ 63.
Definition max : Z := 2 ^ 63 - 1.

(** Two's complement wrap-around of a mathematical integer into int64. *)
Definition wrap (z : Z) : Z := (z + 2 ^ 63) mod 2 ^ 64 - 2 ^ 63.

Definition in_range (z : Z) : bool := (min <=? z) && (z <=? max).

Definition add (x y : Z) : Z := wrap (x + y).
Definition mul (x y : Z) : Z := wrap (x * y).

End Int64.

(** ** float64, as an interface *)

Class Float64 (F : Type) : Type := {
  (** [float64(i)] for an int64 [i]; also the integer literals and constants *)
  f64_of_int : Z -> F;
  (** [math.MaxFloat64] = 2^1023 * (2 - 2^-52) *)
  MaxFloat64 : F;
  f64_add : F -> F -> F;
  f64_sub : F -> F -> F;
  f64_mul : F -> F -> F;
  f64_div : F -> F -> F;
  (** [x == y] and [x < y] *)
  f64_eqb : F -> F -> bool;
  f64_ltb : F -> F -> bool;
  (** [int64(x)]: truncation toward zero *)
  f64_to_int64 : F -> Z
}.

Declare Scope f64_scope.
Delimit Scope f64_scope with f64.
Infix "+" := f64_add : f64_scope.
Infix "-" := f64_sub : f64_scope.
Infix "*" := f64_mul : f64_scope.
Infix "/" := f64_div : f64_scope.
Infix "==" := f64_eqb (at level 70, no associativity) : f64_scope.
Infix "<?" := f64_ltb : f64_scope.
Notation "x >? y" := (f64_ltb y x) (only parsing) : f64_scope.

(** *** IEEE 754 binary64: the arithmetic of Go's float64 *)

Module F64.

(** Conversion of an int64, rounding to nearest, ties to even. The primitive
    conversion takes the 63-bit magnitude; -2^63 has none and is given. *)
Definition of_int (z : Z) : float :=
  if z =? - 2 ^ 63 then (-0x1p+63)%float
  else if z <? 0 then (- of_uint63 (Uint63.of_Z (- z)))%float
  else of_uint63 (Uint63.of_Z z).

(** The integer part of a finite float, [None] for infinities and NaN. *)
Definition trunc (x : float) : option Z :=
  match Prim2SF x with
  | S754_zero _ => Some 0
  | S754_finite s m e =>
      let a := Z.shiftl (Zpos m) e in Some (if s then - a else a)
  | S754_infinity _ | S754_nan => None
  end.

(** [int64(x)]. Go leaves the result to the implementation when the integer
    part of [x] is not an int64 (and for infinities and NaN); this is what
    amd64 gives there, the "integer indefinite" value 0x8000000000000000. *)
Definition to_int64 (x : float) : Z :=
  match trunc x with
  | Some z => if Int64.in_range z then z else Int64.min
  | None => Int64.min
  end.

(** Three classes of values, read off the sign: NaN or not negative (a zero
    of either sign counts); the same without the negative zero; NaN or
    strictly positive. *)
Definition nonneg (x : spec_float) : Prop :=
  match x with
  | S754_nan | S754_zero _ => True
  | S754_infinity s | S754_finite s _ _ => s = false
  end.

Definition nonneg_pz (x : spec_float) : Prop :=
  match x with
  | S754_nan => True
  | S754_zero s | S754_infinity s | S754_finite s _ _ => s = false
  end.

Definition positive_or_nan (x : spec_float) : Prop :=
  match x with
  | S754_nan => True
  | S754_zero _ => False
  | S754_infinity s | S754_finite s _ _ => s = false
  end.

End F64.

#[export] Instance IEEE : Float64 float := {|
  f64_of_int := F64.of_int;
  MaxFloat64 := 0x1.fffffffffffffp+1023%float;
  f64_add := PrimFloat.add;
  f64_sub := PrimFloat.sub;
  f64_mul := PrimFloat.mul;
  f64_div := PrimFloat.div;
  f64_eqb := PrimFloat.eqb;
  f64_ltb := PrimFloat.ltb;
  f64_to_int64 := F64.to_int64
|}.

(** *** Exact arithmetic: the real numbers *)

Module Real.

Definition eqb (x y : R) : bool := if Req_dec_T x y then true else false.
Definition ltb (x y : R) : bool := if Rlt_dec x y then true else false.

(** Truncation toward zero. *)
Definition trunc (x : R) : Z :=
  if Rle_dec 0 x then Int_part x else - Int_part (- x).

Definition to_int64 (x : R) : Z :=
  let z := trunc x in if Int64.in_range z then z else Int64.min.

End Real.

#[export] Instance Exact : Float64 R := {|
  f64_of_int := IZR;
  MaxFloat64 := IZR ((2 ^ 53 - 1) * 2 ^ 971);
  f64_add := Rplus;
  f64_sub := Rminus;
  f64_mul := Rmult;
  f64_div := Rdiv;
  f64_eqb := Real.eqb;
  f64_ltb := Real.ltb;
  f64_to_int64 := Real.to_int64
|}.

(** ** Package time (the standard library's, as far as the tracker uses it) *)

Module time.

(** A reading of the monotonic clock, in nanoseconds. *)
Definition Time : Type := Z.
(** [time.Duration] is an int64 count of nanoseconds. *)
Definition Duration : Type := Z.

Definition Nanosecond : Duration := 1.
Definition Microsecond : Duration := 1000 * Nanosecond.
Definition Millisecond : Duration := 1000 * Microsecond.
Definition Second : Duration := 1000 * Millisecond.

Definition minDuration : Duration := Int64.min.
Definition maxDuration : Duration := Int64.max.

(** [t.Sub(u)]: the difference, saturated to the range of [Duration]. *)
Definition Sub (t u : Time) : Duration :=
  let d := t - u in
  if d <? minDuration then minDuration
  else if maxDuration <? d then maxDuration
  else d.

(** [time.Since(t)] is [time.Now().Sub(t)]; [now] is that reading. *)
Definition Since (now t : Time) : Duration := Sub now t.

(** [d.Seconds()]: Go divides and takes remainders toward zero. *)
Definition Seconds {F} `{Float64 F} (d : Duration) : F :=
  let sec := Z.quot d Second in
  let nsec := Z.rem d Second in
  (f64_of_int sec + f64_of_int nsec / f64_of_int (10 ^ 9))%f64.

End time.

(** ** Package ewma *)

Module ewma.
Section Average.
Context {F : Type} `{Float64 F}.
Local Open Scope f64_scope.

Definition averageMetricAge : F := f64_of_int 5.

Definition decay : F := f64_of_int 2 / (averageMetricAge + f64_of_int 1).

Record average : Type := { value : F }.

Definition New (initial : F) : average := {| value := initial |}.

Definition Add (x : F) (a : average) : average :=
  if value a == f64_of_int 0 then {| value := x |}
  else {| value := (x * decay) + (value a * (f64_of_int 1 - decay)) |}.

Definition Value (a : average) : F := value a.

End Average.
Arguments average F : clear implicits.
End ewma.

(** ** Package united (the part the tracker's options mention) *)

Module united.

Inductive Units : Type := UnitsNone | UnitsBytes.

End united.

(** ** Package tracker *)

Module tracker.
Section Tracker.
Context {F : Type} `{Float64 F}.
(** The state outside the tracker that the finish callbacks act on (a log, a
    progress bar, ...). A callback is a function on it: it runs outside the
    tracker's lock and is not given the tracker. *)
Context {W : Type}.
Local Open Scope f64_scope.

Definition OnFinish_t : Type := W -> W.

Record ByteAmount : Type := { ByteAmount_Value : Z }.

Record measurement : Type := { m_time : time.Time; m_value : F }.

Record tracker : Type := {
  startTime : time.Time;
  value : F;
  max : F;
  measurementInterval : time.Duration;
  paused : bool;
  onFinish : list OnFinish_t;
  duration : time.Duration;
  speed : F;
  minSpeed : F;
  maxSpeed : F;
  speedAverage : ewma.average F;
  secondsLeftAverage : ewma.average F;
  lastMeasurement : option measurement;
  byteAmount : option ByteAmount
}.

Record CompletionStats : Type := {
  cs_duration : time.Duration;
  cs_averageSpeed : F;
  cs_minSpeed : F;
  cs_maxSpeed : F;
  cs_byteAmount : option ByteAmount
}.

Record BPS : Type := { BPS_Value : F }.

Record Stats_t : Type := {
  s_value : F;
  s_speed : F;
  s_timeLeft : option time.Duration;
  s_byteAmount : option ByteAmount
}.

Record Opts : Type := {
  opts_ByteAmount : option ByteAmount;
  opts_Value : F;
  opts_Units : united.Units;
  opts_MeasurementInterval : time.Duration
}.

(** Assignments to single fields of the tracker. *)

Definition set_value (v : F) (t : tracker) : tracker :=
  {| startTime := startTime t; value := v; max := max t;
     measurementInterval := measurementInterval t; paused := paused t;
     onFinish := onFinish t; duration := duration t; speed := speed t;
     minSpeed := minSpeed t; maxSpeed := maxSpeed t;
     speedAverage := speedAverage t;
     secondsLeftAverage := secondsLeftAverage t;
     lastMeasurement := lastMeasurement t; byteAmount := byteAmount t |}.

Definition set_paused (b : bool) (t : tracker) : tracker :=
  {| startTime := startTime t; value := value t; max := max t;
     measurementInterval := measurementInterval t; paused := b;
     onFinish := onFinish t; duration := duration t; speed := speed t;
     minSpeed := minSpeed t; maxSpeed := maxSpeed t;
     speedAverage := speedAverage t;
     secondsLeftAverage := secondsLeftAverage t;
     lastMeasurement := lastMeasurement t; byteAmount := byteAmount t |}.

Definition set_onFinish (l : list OnFinish_t) (t : tracker) : tracker :=
  {| startTime := startTime t; value := value t; max := max t;
     measurementInterval := measurementInterval t; paused := paused t;
     onFinish := l; duration := duration t; speed := speed t;
     minSpeed := minSpeed t; maxSpeed := maxSpeed t;
     speedAverage := speedAverage t;
     secondsLeftAverage := secondsLeftAverage t;
     lastMeasurement := lastMeasurement t; byteAmount := byteAmount t |}.

Definition set_duration (d : time.Duration) (t : tracker) : tracker :=
  {| startTime := startTime t; value := value t; max := max t;
     measurementInterval := measurementInterval t; paused := paused t;
     onFinish := onFinish t; duration := d; speed := speed t;
     minSpeed := minSpeed t; maxSpeed := maxSpeed t;
     speedAverage := speedAverage t;
     secondsLeftAverage := secondsLeftAverage t;
     lastMeasurement := lastMeasurement t; byteAmount := byteAmount t |}.

Definition set_speed (x : F) (t : tracker) : tracker :=
  {| startTime := startTime t; value := value t; max := max t;
     measurementInterval := measurementInterval t; paused := paused t;
     onFinish := onFinish t; duration := duration t; speed := x;
     minSpeed := minSpeed t; maxSpeed := maxSpeed t;
     speedAverage := speedAverage t;
     secondsLeftAverage := secondsLeftAverage t;
     lastMeasurement := lastMeasurement t; byteAmount := byteAmount t |}.

Definition set_minSpeed (x : F) (t : tracker) : tracker :=
  {| startTime := startTime t; value := value t; max := max t;
     measurementInterval := measurementInterval t; paused := paused t;
     onFinish := onFinish t; duration := duration t; speed := speed t;
     minSpeed := x; maxSpeed := maxSpeed t;
     speedAverage := speedAverage t;
     secondsLeftAverage := secondsLeftAverage t;
     lastMeasurement := lastMeasurement t; byteAmount := byteAmount t |}.

Definition set_maxSpeed (x : F) (t : tracker) : tracker :=
  {| startTime := startTime t; value := value t; max := max t;
     measurementInterval := measurementInterval t; paused := paused t;
     onFinish := onFinish t; duration := duration t; speed := speed t;
     minSpeed := minSpeed t; maxSpeed := x;
     speedAverage := speedAverage t;
     secondsLeftAverage := secondsLeftAverage t;
     lastMeasurement := lastMeasurement t; byteAmount := byteAmount t |}.

Definition set_speedAverage (a : ewma.average F) (t : tracker) : tracker :=
  {| startTime := startTime t; value := value t; max := max t;
     measurementInterval := measurementInterval t; paused := paused t;
     onFinish := onFinish t; duration := duration t; speed := speed t;
     minSpeed := minSpeed t; maxSpeed := maxSpeed t;
     speedAverage := a;
     secondsLeftAverage := secondsLeftAverage t;
     lastMeasurement := lastMeasurement t; byteAmount := byteAmount t |}.

Definition set_secondsLeftAverage (a : ewma.average F) (t : tracker)
  : tracker :=
  {| startTime := startTime t; value := value t; max := max t;
     measurementInterval := measurementInterval t; paused := paused t;
     onFinish := onFinish t; duration := duration t; speed := speed t;
     minSpeed := minSpeed t; maxSpeed := maxSpeed t;
     speedAverage := speedAverage t;
     secondsLeftAverage := a;
     lastMeasurement := lastMeasurement t; byteAmount := byteAmount t |}.

Definition set_lastMeasurement (m : option measurement) (t : tracker)
  : tracker :=
  {| startTime := startTime t; value := value t; max := max t;
     measurementInterval := measurementInterval t; paused := paused t;
     onFinish := onFinish t; duration := duration t; speed := speed t;
     minSpeed := minSpeed t; maxSpeed := maxSpeed t;
     speedAverage := speedAverage t;
     secondsLeftAverage := secondsLeftAverage t;
     lastMeasurement := m; byteAmount := byteAmount t |}.

Definition ensureDefaults (opts : Opts) : Opts :=
  if (opts_MeasurementInterval opts =? 0)%Z
  then {| opts_ByteAmount := opts_ByteAmount opts;
          opts_Value := opts_Value opts;
          opts_Units := opts_Units opts;
          opts_MeasurementInterval := (1 * time.Second)%Z |}
  else opts.

(** [New(opts)]; [now] is the reading of [time.Now()]. The fields the
    composite literal leaves out take Go's zero values. *)
Definition New (now : time.Time) (opts : Opts) : tracker :=
  let opts := ensureDefaults opts in
  {| startTime := now;
     value := opts_Value opts;
     max := f64_of_int 0;
     measurementInterval := opts_MeasurementInterval opts;
     paused := false;
     onFinish := [];
     duration := 0%Z;
     speed := f64_of_int 0;
     minSpeed := MaxFloat64;
     maxSpeed := f64_of_int 0;
     speedAverage := ewma.New (f64_of_int 0);
     secondsLeftAverage := ewma.New (f64_of_int 0);
     lastMeasurement := None;
     byteAmount := opts_ByteAmount opts |}.

Definition clamp (value : F) : F :=
  if value >? f64_of_int 1 then f64_of_int 1
  else if value <? f64_of_int 0 then f64_of_int 0
  else value.

Definition toBPS (byteAmount : option ByteAmount) (speed : F) : option BPS :=
  match byteAmount with
  | None => None
  | Some ba => Some {| BPS_Value := speed * f64_of_int (ByteAmount_Value ba) |}
  end.

Definition lockedResetMeasurement (t : tracker) : tracker :=
  let t := set_lastMeasurement None t in
  let t := set_speed (f64_of_int 0) t in
  let t := set_minSpeed MaxFloat64 t in
  let t := set_maxSpeed (f64_of_int 0) t in
  let t := set_speedAverage (ewma.New (f64_of_int 0)) t in
  set_secondsLeftAverage (ewma.New (f64_of_int 0)) t.

(** [now] is the reading of [time.Now()], [now'] the later one taken inside
    [time.Since]. *)
Definition lockedUpdateMeasurement (now now' : time.Time) (v : F)
  (t : tracker) : tracker :=
  let t := if paused t then lockedResetMeasurement t else t in
  match lastMeasurement t with
  | None =>
      set_lastMeasurement (Some {| m_time := now; m_value := v |}) t
  | Some last =>
      let sinceLast := time.Since now' (m_time last) in
      if (sinceLast <? measurementInterval t)%Z then t
      else
        let t := set_duration (Int64.add (duration t) sinceLast) t in
        let valueDelta := v - m_value last in
        if valueDelta <? f64_of_int 0 then lockedResetMeasurement t
        else
          let t := set_speed (valueDelta / time.Seconds sinceLast) t in
          let t := set_speedAverage (ewma.Add (speed t) (speedAverage t)) t in
          let t := if speed t >? maxSpeed t
                   then set_maxSpeed (speed t) t else t in
          let t := if speed t <? minSpeed t
                   then set_minSpeed (speed t) t else t in
          let secondsLeft :=
            (f64_of_int 1 - value t) / ewma.Value (speedAverage t) in
          let t := set_secondsLeftAverage
                     (ewma.Add secondsLeft (secondsLeftAverage t)) t in
          set_lastMeasurement (Some {| m_time := now; m_value := v |}) t
  end.

Definition SetProgress (now now' : time.Time) (value : F) (t : tracker)
  : tracker :=
  let value := clamp value in
  let t := lockedUpdateMeasurement now now' value t in
  set_value value t.

Definition Pause (t : tracker) : tracker :=
  lockedResetMeasurement (set_paused true t).

Definition Resume (t : tracker) : tracker :=
  lockedResetMeasurement (set_paused false t).

Definition Paused (t : tracker) : bool := paused t.

Definition Progress (t : tracker) : F := value t.

Definition Duration (t : tracker) : time.Duration := duration t.

Definition OnFinish (callback : OnFinish_t) (t : tracker) : tracker :=
  set_onFinish (onFinish t ++ [callback]) t.

(** The loop [for _, cb := range t.onFinish { cb() }]. *)
Definition run_callbacks (cbs : list OnFinish_t) (w : W) : W :=
  fold_left (fun w cb => cb w) cbs w.

(** [t.Finish()]; [now] is the reading inside [time.Since]. The result is
    the returned statistics, the tracker and the state the callbacks left. *)
Definition Finish (now : time.Time) (t : tracker) (w : W)
  : CompletionStats * tracker * W :=
  let w := run_callbacks (onFinish t) w in
  let t := match lastMeasurement t with
           | Some last =>
               let t := set_duration
                          (Int64.add (duration t)
                                     (time.Since now (m_time last))) t in
               set_lastMeasurement None t
           | None => t
           end in
  ({| cs_duration := duration t;
      cs_averageSpeed := f64_of_int 1 / time.Seconds (duration t);
      cs_minSpeed := minSpeed t;
      cs_maxSpeed := maxSpeed t;
      cs_byteAmount := byteAmount t |}, t, w).

Definition Stats (t : tracker) : option Stats_t :=
  if (speed t == f64_of_int 0) || (match lastMeasurement t with
                                   | None => true | Some _ => false end)
  then None
  else
    let secondsLeft :=
      (f64_of_int 1 - value t) / ewma.Value (speedAverage t) in
    let timeLeftVal :=
      Int64.mul time.Millisecond
                (f64_to_int64 (secondsLeft * f64_of_int 1000)) in
    let timeLeft :=
      if (timeLeftVal <? 0)%Z then None else Some timeLeftVal in
    Some {| s_speed := ewma.Value (speedAverage t);
            s_timeLeft := timeLeft;
            s_value := value t;
            s_byteAmount := byteAmount t |}.

End Tracker.
Arguments tracker : clear implicits.
Arguments measurement : clear implicits.
Arguments Opts : clear implicits.
Arguments Stats_t : clear implicits.
Arguments CompletionStats : clear implicits.
Arguments BPS : clear implicits.
End tracker.

(** ** Package probar: the finish handler and the redraw loop

    The bar shares its tracker by pointer; here the tracker is not a field of
    the bar, and what [write] reads from it ([Stats()], [Progress()]) is an
    argument. What [opts.Printf] has written is kept in the bar, as the list
    [printed]; the options' [Printf] and the theme are not fields of the
    model. The text of a frame (the formatting done by [write]) is not
    modelled: a frame is recorded with what it was composed from. *)

Module probar.
Section Bar.
Context {F : Type} `{Float64 F}.

Record Opts : Type := {
  RefreshRate : time.Duration;
  TimeBoxWidth : Z;
  SpeedBoxWidth : Z;
  BarWidth : Z;
  Width : Z;
  ShowSpeed : bool;
  ShowTimeLeft : bool
}.

Definition ensureDefaults (opts : Opts) : Opts :=
  {| RefreshRate := if RefreshRate opts =? 0
                    then 200 * time.Millisecond else RefreshRate opts;
     TimeBoxWidth := if TimeBoxWidth opts =? 0 then 13 else TimeBoxWidth opts;
     SpeedBoxWidth := if SpeedBoxWidth opts =? 0
                      then 13 else SpeedBoxWidth opts;
     BarWidth := if BarWidth opts =? 0 then 20 else BarWidth opts;
     Width := if Width opts =? 0 then 80 else Width opts;
     ShowSpeed := ShowSpeed opts;
     ShowTimeLeft := ShowTimeLeft opts |}.

(** A [chan struct{}] on which nothing is ever sent: it is open or closed. *)
Inductive chan : Type := Open | Closed.

(** [close(c)]; closing a closed channel panics ([None]). *)
Definition close (c : chan) : option chan :=
  match c with
  | Open => Some Closed
  | Closed => None
  end.

(** One call of [opts.Printf]. *)
Inductive output : Type :=
| ClearLine (width : Z)
| TextLine (line : string)
| Frame (stats : option (tracker.Stats_t F)) (current : F)
        (prefix postfix : string) (scale : F).

Record bar : Type := {
  opts : Opts;
  units : united.Units;
  scale : F;
  finishChan : chan;
  finished : bool;
  lines : list string;
  prefix : string;
  postfix : string;
  printed : list output
}.

Definition print (o : list output) (b : bar) : bar :=
  {| opts := opts b; units := units b; scale := scale b;
     finishChan := finishChan b; finished := finished b; lines := lines b;
     prefix := prefix b; postfix := postfix b;
     printed := printed b ++ o |}.

Definition set_lines (l : list string) (b : bar) : bar :=
  {| opts := opts b; units := units b; scale := scale b;
     finishChan := finishChan b; finished := finished b; lines := l;
     prefix := prefix b; postfix := postfix b; printed := printed b |}.

Definition set_finishChan (c : chan) (b : bar) : bar :=
  {| opts := opts b; units := units b; scale := scale b;
     finishChan := c; finished := finished b; lines := lines b;
     prefix := prefix b; postfix := postfix b; printed := printed b |}.

Definition set_finished (f : bool) (b : bar) : bar :=
  {| opts := opts b; units := units b; scale := scale b;
     finishChan := finishChan b; finished := f; lines := lines b;
     prefix := prefix b; postfix := postfix b; printed := printed b |}.

Definition SetScale (x : F) (b : bar) : bar :=
  {| opts := opts b; units := units b; scale := x;
     finishChan := finishChan b; finished := finished b; lines := lines b;
     prefix := prefix b; postfix := postfix b; printed := printed b |}.

Definition SetPrefix (s : string) (b : bar) : bar :=
  {| opts := opts b; units := units b; scale := scale b;
     finishChan := finishChan b; finished := finished b; lines := lines b;
     prefix := s; postfix := postfix b; printed := printed b |}.

Definition SetPostfix (s : string) (b : bar) : bar :=
  {| opts := opts b; units := units b; scale := scale b;
     finishChan := finishChan b; finished := finished b; lines := lines b;
     prefix := prefix b; postfix := s; printed := printed b |}.

Definition Println (s : string) (b : bar) : bar :=
  set_lines (lines b ++ [s]) b.

Definition clear (b : bar) : bar := print [ClearLine (Width (opts b))] b.

(** [b.finish()]; [None] is a panic. *)
Definition finish (b : bar) : option bar :=
  if finished b then Some b
  else
    match close (finishChan b) with
    | None => None
    | Some c =>
        let b := set_finishChan c b in
        let b := set_finished true b in
        Some (clear b)
    end.

(** [b.write()]; [stats] and [current] are what [b.tracker.Stats()] and
    [b.tracker.Progress()] return. *)
Definition write (stats : option (tracker.Stats_t F)) (current : F) (b : bar)
  : bar :=
  let b := match lines b with
           | [] => b
           | _ :: _ =>
               let b := clear b in
               let b := print (map TextLine (lines b)) b in
               set_lines [] b
           end in
  print [Frame stats current (prefix b) (postfix b) (scale b)] b.

Definition update (stats : option (tracker.Stats_t F)) (current : F)
  (b : bar) : bar := write stats current b.

(** Where the goroutine running [b.writer()] stands: before its first
    [b.update()], at the [select] of its loop, or returned. *)
Inductive writer_pc : Type := AtStart | AtSelect | Returned.

(** The bar, its writer goroutine, and whether a panic has happened. *)
Record world : Type := {
  the_bar : bar;
  writer : writer_pc;
  panicked : bool
}.

(** What can happen next. The methods of the bar hold its mutex for their
    whole body and are single steps. The writer's [select] takes no lock; its
    receive from [finishChan] only moves the writer, so it commutes with the
    rest of a [finish] that has closed the channel. The [time.After] case of
    the [select] can be chosen whether [finishChan] is closed or not. *)
Inductive event : Type :=
| CallFinish
| CallPrintln (s : string)
| CallSetPrefix (s : string)
| CallSetPostfix (s : string)
| CallSetScale (x : F)
| WriterUpdate (stats : option (tracker.Stats_t F)) (current : F)
| WriterReturn.

Definition with_bar (b : bar) (w : world) : world :=
  {| the_bar := b; writer := writer w; panicked := panicked w |}.

(** The finish handler as the tracker calls it. *)
Definition call_finish (w : world) : world :=
  if panicked w then w
  else match finish (the_bar w) with
       | Some b => with_bar b w
       | None => {| the_bar := the_bar w; writer := writer w;
                    panicked := true |}
       end.

(** One step; [None] when the event cannot happen in this state. *)
Definition step (e : event) (w : world) : option world :=
  if panicked w then None
  else
    match e with
    | CallFinish => Some (call_finish w)
    | CallPrintln s => Some (with_bar (Println s (the_bar w)) w)
    | CallSetPrefix s => Some (with_bar (SetPrefix s (the_bar w)) w)
    | CallSetPostfix s => Some (with_bar (SetPostfix s (the_bar w)) w)
    | CallSetScale x => Some (with_bar (SetScale x (the_bar w)) w)
    | WriterUpdate stats current =>
        match writer w with
        | AtStart | AtSelect =>
            Some {| the_bar := update stats current (the_bar w);
                    writer := AtSelect; panicked := false |}
        | Returned => None
        end
    | WriterReturn =>
        match writer w, finishChan (the_bar w) with
        | AtSelect, Closed =>
            Some {| the_bar := the_bar w; writer := Returned;
                    panicked := false |}
        | _, _ => None
        end
    end.

Fixpoint run (es : list event) (w : world) : option world :=
  match es with
  | [] => Some w
  | e :: es => match step e w with
               | Some w' => run es w'
               | None => None
               end
  end.


(** [New(tracker, opts)]: the new bar with its writer goroutine started, and
    the tracker with [b.finish] registered. *)
Definition New (tr : tracker.tracker F world) (o : Opts)
  : tracker.tracker F world * world :=
  let o := ensureDefaults o in
  let units := match tracker.byteAmount tr with
               | Some _ => united.UnitsBytes
               | None => united.UnitsNone
               end in
  let b := {| opts := o; units := units; scale := f64_of_int 1;
              finishChan := Open; finished := false; lines := [];
              prefix := EmptyString; postfix := EmptyString;
              printed := [] |} in
  (tracker.OnFinish call_finish tr,
   {| the_bar := b; writer := AtStart; panicked := false |}).

End Bar.
Arguments bar : clear implicits.
Arguments world : clear implicits.
Arguments event : clear implicits.
Arguments output : clear implicits.
End probar.

(** ** Callers of the tracker *)

Module client.
Section Client.
Context {F : Type} `{Float64 F}.
Context {W : Type}.

(** One call on a tracker, with the clock readings it takes. *)
Inductive op : Type :=
| CallSetProgress (now now' : time.Time) (value : F)
| CallPause
| CallResume
| CallOnFinish (callback : W -> W)
| CallFinish (now : time.Time).

Definition apply_op (o : op) (s : tracker.tracker F W * W)
  : tracker.tracker F W * W :=
  let '(t, w) := s in
  match o with
  | CallSetProgress now now' v => (tracker.SetProgress now now' v t, w)
  | CallPause => (tracker.Pause t, w)
  | CallResume => (tracker.Resume t, w)
  | CallOnFinish cb => (tracker.OnFinish cb t, w)
  | CallFinish now =>
      let '(_, t', w') := tracker.Finish now t w in (t', w')
  end.

Definition run_ops (ops : list op) (s : tracker.tracker F W * W)
  : tracker.tracker F W * W :=
  fold_left (fun s o => apply_op o s) ops s.

(** The clock never goes back: the readings of the calls, in order, do not
    decrease from [c] on. *)
Fixpoint clock_ok (c : time.Time) (ops : list op) : Prop :=
  match ops with
  | [] => True
  | CallSetProgress now now' _ :: rest =>
      c <= now /\ now <= now' /\ clock_ok now' rest
  | CallFinish now :: rest => c <= now /\ clock_ok now rest
  | _ :: rest => clock_ok c rest
  end.

Definition is_SetProgress (o : op) : bool :=
  match o with
  | CallSetProgress _ _ _ => true
  | _ => false
  end.

(** The three parts of what [Finish] gives. *)
Definition stats_of (x : tracker.CompletionStats F * tracker.tracker F W * W)
  : tracker.CompletionStats F := fst (fst x).
Definition tracker_of (x : tracker.CompletionStats F * tracker.tracker F W * W)
  : tracker.tracker F W := snd (fst x).


(** A progress sample and the clock readings of its [SetProgress] call. *)
Record sample : Type := {
  at_now : time.Time;
  at_now' : time.Time;
  at_value : F
}.

(** The loop of the tracker's tests: [tr.SetProgress(f); stats := tr.Stats()]
    for each sample; the result lists the [stats]. *)
Fixpoint snapshots (feed : list sample) (t : tracker.tracker F W)
  : list (option (tracker.Stats_t F)) :=
  match feed with
  | [] => []
  | s :: rest =>
      let t := tracker.SetProgress (at_now s) (at_now' s) (at_value s) t in
      tracker.Stats t :: snapshots rest t
  end.

(** [TimeLeft()] of the snapshots that are not nil. *)
Fixpoint time_lefts (snaps : list (option (tracker.Stats_t F)))
  : list (option time.Duration) :=
  match snaps with
  | [] => []
  | None :: rest => time_lefts rest
  | Some s :: rest => tracker.s_timeLeft s :: time_lefts rest
  end.

End Client.

(** Every value is present, and each is related by [rel] to the one before. *)
Fixpoint chain (rel : time.Duration -> time.Duration -> Prop)
  (l : list (option time.Duration)) : Prop :=
  match l with
  | [] => True
  | None :: _ => False
  | Some a :: rest =>
      match rest with
      | [] => True
      | None :: _ => False
      | Some b :: _ => rel a b
      end /\ chain rel rest
  end.

(** Each value is smaller than the one before. *)
Definition strictly_decreasing : list (option time.Duration) -> Prop :=
  chain (fun a b => b < a).






(** The same for the float64 of the code, where a sample may be NaN: the
    anchor is not from the future, the smoothed speed is not negative (it may
    be NaN), and it is strictly positive or NaN when the speed is not 0. *)
Definition sane64 {W : Type} (c : time.Time) (t : tracker.tracker float W) : Prop :=
  match tracker.lastMeasurement t with
  | Some m => tracker.m_time m <= c
  | None => True
  end /\
  F64.nonneg (Prim2SF (ewma.Value (tracker.speedAverage t))) /\
  ((tracker.speed t == f64_of_int 0)%f64 = false ->
   F64.positive_or_nan (Prim2SF (ewma.Value (tracker.speedAverage t)))).

End client.

(** ** Concrete trackers and calls, in binary64 *)

Module examples.
Import tracker client.

(** A smoothed value that comes out 0: from the value [decay], adding
    [-(1-decay)] gives [-(1-decay)*decay + decay*(1-decay)], which is 0. *)
Definition smoothed_to_zero : ewma.average float :=
  ewma.Add (- (1 - ewma.decay))%float (ewma.New ewma.decay).

Definition opts_with (interval : time.Duration) (initial : float)
  : tracker.Opts float :=
  {| opts_ByteAmount := None; opts_Value := initial;
     opts_Units := united.UnitsNone; opts_MeasurementInterval := interval |}.

(** The tracker of the tests: a measurement interval of 1 ms, created when
    the clock reads 0; its observers act on a log. *)
Definition fresh : tracker.tracker float (list nat) :=
  New 0 (opts_with time.Millisecond 0%float).

(** A sample 0.6 taken at 0, then, 10 ms later, the sample 0.3. *)
Definition reached_06 : tracker.tracker float (list nat) :=
  SetProgress 0 0 0.6%float fresh.
Definition regressed : tracker.tracker float (list nat) :=
  SetProgress (10 * time.Millisecond) (10 * time.Millisecond) 0.3%float
              reached_06.


(** A sample 0.25 taken 500 microseconds after the sample 0.6. *)
Definition throttled : tracker.tracker float (list nat) :=
  SetProgress 500000 500000 0.25%float reached_06.


(** The same two calls as a client's sequence of calls. *)
Definition halfway_ops : list (op (F := float) (W := list nat)) :=
  [ CallSetProgress 0 0 0%float;
    CallSetProgress (10 * time.Millisecond) (10 * time.Millisecond) 0.5%float ].





(** Seven samples one millisecond apart, the k-th with the value k/700 as
    binary64 computes it. *)
Definition rounded_feed : list (sample (F := float)) :=
  map (fun k => {| at_now := k * time.Millisecond;
                   at_now' := k * time.Millisecond;
                   at_value := (F64.of_int k * (1 / 700))%float |})
      [0; 1; 2; 3; 4; 5; 6].
Definition rounded_snapshots : list (option (tracker.Stats_t float)) :=
  snapshots rounded_feed fresh.

(** NaN as a progress value, then 0.5 after 10 ms. *)
Definition fed_nan : tracker.tracker float (list nat) :=
  SetProgress 0 0 nan fresh.
Definition after_nan : tracker.tracker float (list nat) :=
  SetProgress (10 * time.Millisecond) (10 * time.Millisecond) 0.5%float
              fed_nan.

(** A bar on the tracker [fresh]: drawn once, a line printed and drawn
    again, the tracker finished twice, the writer stopped. *)
Definition bar_events : list (probar.event float) :=
  [ probar.WriterUpdate None 0%float;
    probar.CallPrintln "hello";
    probar.WriterUpdate None 0.5%float;
    probar.CallFinish; probar.CallFinish;
    probar.WriterReturn ].
Definition bar_opts : probar.Opts :=
  {| probar.RefreshRate := 0; probar.TimeBoxWidth := 0;
     probar.SpeedBoxWidth := 0; probar.BarWidth := 0; probar.Width := 0;
     probar.ShowSpeed := false; probar.ShowTimeLeft := false |}.
Definition bar_tracker : tracker.tracker float (probar.world float) :=
  New 0 (opts_with time.Millisecond 0%float).


(** A tracker created with the initial value 1.7. *)
Definition started_high : tracker.tracker float (list nat) :=
  New 0 (opts_with time.Millisecond 1.7%float).

End examples.

(** * Properties *)

(** Closes a goal about a concrete input by evaluating both sides. *)
Ltac run := vm_compute; reflexivity.

(** ** int64 *)

Module Int64Facts.


Lemma wrap_bounds (z : Z) : Int64.min <= Int64.wrap z <= Int64.max.
Proof.
  unfold Int64.wrap, Int64.min, Int64.max.
  pose proof (Z.mod_pos_bound (z + 2 ^ 63) (2 ^ 64) ltac:(lia)). lia.
Qed.


End Int64Facts.

(** ** The moving average *)

Module EwmaFacts.

Lemma decay_IEEE : ewma.decay (F := float) = (1 / 3)%float.
Proof. vm_compute. reflexivity. Qed.

Lemma decay_Exact : ewma.decay (F := R) = (1 / 3)%R.
Proof.
  unfold ewma.decay, ewma.averageMetricAge. simpl. lra.
Qed.

(** C7. [Add(x)] on an average whose value equals 0 sets the value to [x]
    itself; on any other value it sets it to [x*decay + value*(1-decay)];
    [Value()] returns the value; [decay] is [2/(5+1)], the float64 nearest to
    1/3 in binary64 and 1/3 in exact arithmetic. The value 0 is a cold start
    also when smoothing produced it: [examples.smoothed_to_zero] has the value 0, and
    adding 7 to it gives 7. *)
Theorem Add_cold_start_or_decay :
  (forall (F : Type) (A : Float64 F) (a : ewma.average F) (x : F),
      ewma.Value (ewma.Add x a) =
        (if ewma.Value a == f64_of_int 0 then x
         else x * ewma.decay + ewma.Value a * (f64_of_int 1 - ewma.decay))%f64
      /\ ewma.Value a = ewma.value a
      /\ ewma.decay (F := F) =
           (f64_of_int 2 / (f64_of_int 5 + f64_of_int 1))%f64)
  /\ ewma.decay (F := float) = (1 / 3)%float
  /\ ewma.decay (F := R) = (1 / 3)%R
  /\ ewma.Value examples.smoothed_to_zero = 0%float
  /\ ewma.Value (ewma.Add 7%float examples.smoothed_to_zero) = 7%float.
Proof.
  split; [| split; [exact decay_IEEE | split; [exact decay_Exact |]]].
  - intros F A a x. repeat split.
    unfold ewma.Add, ewma.Value.
    destruct (ewma.value a == f64_of_int 0)%f64; reflexivity.
  - split; vm_compute; reflexivity.
Qed.

End EwmaFacts.

(** ** The tracker, for every arithmetic *)

Module TrackerFacts.
Import tracker client.

Section Generic.
Context {F : Type} `{Float64 F}.
Context {W : Type}.
Implicit Types (t : tracker.tracker F W) (w : W).








(** The state a full reset leaves. *)
Lemma lockedResetMeasurement_fields t :
  let t' := lockedResetMeasurement t in
  lastMeasurement t' = None /\ speed t' = f64_of_int 0 /\
  minSpeed t' = MaxFloat64 /\ maxSpeed t' = f64_of_int 0 /\
  speedAverage t' = ewma.New (f64_of_int 0) /\
  secondsLeftAverage t' = ewma.New (f64_of_int 0) /\
  value t' = value t /\ duration t' = duration t /\ paused t' = paused t /\
  measurementInterval t' = measurementInterval t /\
  onFinish t' = onFinish t /\ byteAmount t' = byteAmount t.
Proof. cbv zeta. repeat split. Qed.

Lemma Stats_without_anchor t : lastMeasurement t = None -> Stats t = None.
Proof. unfold Stats. intros ->. now rewrite orb_true_r. Qed.


(** On an unpaused tracker holding the anchor [m], a [SetProgress(v)]
    measured at least one measurement interval after the anchor, whose
    [valueDelta], the clamped value minus the anchor's value, is negative,
    adds the
    elapsed time to the duration and performs a full reset: the anchor is
    cleared (the sample is kept as the current value only), the speed is
    zeroed, the extrema and both averages are reset; no rate is emitted
    ([Stats()] is nil), and whatever sample comes next becomes the anchor. *)
Lemma SetProgress_negative_delta_resets
  (now now' : time.Time) (v : F) t (m : measurement F) :
  paused t = false ->
  lastMeasurement t = Some m ->
  measurementInterval t <= time.Since now' (m_time m) ->
  (clamp v - m_value m <? f64_of_int 0)%f64 = true ->
  let t' := SetProgress now now' v t in
  lastMeasurement t' = None /\
  value t' = clamp v /\
  duration t' = Int64.add (duration t) (time.Since now' (m_time m)) /\
  speed t' = f64_of_int 0 /\
  minSpeed t' = MaxFloat64 /\ maxSpeed t' = f64_of_int 0 /\
  speedAverage t' = ewma.New (f64_of_int 0) /\
  secondsLeftAverage t' = ewma.New (f64_of_int 0) /\
  Stats t' = None /\
  forall (n n' : time.Time) (v2 : F),
    lastMeasurement (SetProgress n n' v2 t') =
    Some {| m_time := n; m_value := clamp v2 |}.
Proof.
  intros Hp Ha Hi Hd. cbv zeta.
  assert (E : SetProgress now now' v t =
              set_value (clamp v)
                (lockedResetMeasurement
                   (set_duration
                      (Int64.add (duration t) (time.Since now' (m_time m)))
                      t))).
  { unfold SetProgress, lockedUpdateMeasurement.
    rewrite Hp, Ha.
    destruct (time.Since now' (m_time m) <? measurementInterval t)%Z eqn:El;
      [apply Z.ltb_lt in El; lia |].
    cbn [duration set_duration]. rewrite Hd. reflexivity. }
  rewrite E. repeat (split; [reflexivity |]).
  split; [now apply Stats_without_anchor |].
  intros n n' v2. unfold SetProgress, lockedUpdateMeasurement.
  cbn. rewrite Hp. reflexivity.
Qed.

(** A paused tracker is reset by every sample and keeps it as its anchor. *)
Lemma SetProgress_while_paused (now now' : time.Time) (v : F) t :
  paused t = true ->
  lastMeasurement (SetProgress now now' v t) =
  Some {| m_time := now; m_value := clamp v |}.
Proof.
  intros Hp. unfold SetProgress, lockedUpdateMeasurement. rewrite Hp.
  reflexivity.
Qed.


(** C6. On an unpaused tracker holding the anchor [m], a [SetProgress(v)]
    measured less than one measurement interval after the anchor changes the
    current value only: speed, extrema, duration, both averages and the
    anchor stay as they are. *)
Theorem SetProgress_within_interval
  (now now' : time.Time) (v : F) t (m : measurement F) :
  paused t = false ->
  lastMeasurement t = Some m ->
  time.Since now' (m_time m) < measurementInterval t ->
  let t' := SetProgress now now' v t in
  t' = set_value (clamp v) t /\
  value t' = clamp v /\
  speed t' = speed t /\ minSpeed t' = minSpeed t /\
  maxSpeed t' = maxSpeed t /\ duration t' = duration t /\
  speedAverage t' = speedAverage t /\
  secondsLeftAverage t' = secondsLeftAverage t /\
  lastMeasurement t' = Some m.
Proof.
  intros Hp Ha Hi. cbv zeta.
  assert (E : SetProgress now now' v t = set_value (clamp v) t).
  { unfold SetProgress, lockedUpdateMeasurement. rewrite Hp, Ha.
    apply Z.ltb_lt in Hi. rewrite Hi. reflexivity. }
  rewrite E. repeat split. exact Ha.
Qed.

(** What [Finish()] leaves and returns. *)
Lemma Finish_fields (now : time.Time) t w :
  let d := match lastMeasurement t with
           | Some last =>
               Int64.add (duration t) (time.Since now (m_time last))
           | None => duration t
           end in
  let r := Finish now t w in
  Duration (tracker_of r) = d /\
  lastMeasurement (tracker_of r) = None /\
  cs_duration (stats_of r) = d /\
  cs_averageSpeed (stats_of r) = (f64_of_int 1 / time.Seconds d)%f64 /\
  cs_minSpeed (stats_of r) = minSpeed t /\
  cs_maxSpeed (stats_of r) = maxSpeed t /\
  cs_byteAmount (stats_of r) = byteAmount t.
Proof.
  cbv zeta. unfold Finish, stats_of, tracker_of, Duration. cbn [fst snd].
  destruct (lastMeasurement t) eqn:Ea; cbn; repeat split. exact Ea.
Qed.

End Generic.

(** C8. [Finish()] adds to the duration the time elapsed since the anchor,
    if there is one, and clears the anchor; the statistics it returns hold
    that final duration, [1.0] divided by its seconds as the average speed
    (not the smoothed speed of [Stats()]), the recorded extrema and the byte
    amount. The division needs a positive duration: with a duration of 0 the
    average speed of binary64 is +Inf. *)
Theorem Finish_completion_stats :
  (forall (F : Type) (A : Float64 F) (W : Type) (now : time.Time)
          (t : tracker.tracker F W) (w : W),
     let d := match lastMeasurement t with
              | Some last =>
                  Int64.add (duration t) (time.Since now (m_time last))
              | None => duration t
              end in
     let r := Finish now t w in
     Duration (tracker_of r) = d /\
     lastMeasurement (tracker_of r) = None /\
     cs_duration (stats_of r) = d /\
     cs_averageSpeed (stats_of r) = (f64_of_int 1 / time.Seconds d)%f64 /\
     cs_minSpeed (stats_of r) = minSpeed t /\
     cs_maxSpeed (stats_of r) = maxSpeed t /\
     cs_byteAmount (stats_of r) = byteAmount t) /\
  (forall (W : Type) (now : time.Time) (t : tracker.tracker float W) (w : W),
     cs_averageSpeed
       (stats_of (Finish now (set_lastMeasurement None (set_duration 0 t)) w))
     = infinity).
Proof.
  split.
  - intros F A W now t w. apply Finish_fields.
  - intros W now t w. reflexivity.
Qed.


(** After the sample 0.6, the sample 0.3 taken 10 ms later (ten measurement
    intervals) leaves no anchor: the sample is not taken as one. *)
Lemma regression_leaves_no_anchor :
  lastMeasurement examples.regressed = None /\
  lastMeasurement examples.regressed <>
    Some {| m_time := 10 * time.Millisecond; m_value := 0.3%float |} /\
  Progress examples.regressed = 0.3%float /\
  Duration examples.regressed = 10 * time.Millisecond.
Proof.
  split; [run |]. split; [vm_compute; discriminate |]. split; run.
Qed.




(** With samples exactly one millisecond apart the time left can repeat as
    well, by rounding: the values k/700 give 696 ms twice. *)
Lemma millisecond_samples_repeat_time_left :
  time_lefts examples.rounded_snapshots =
    [Some 699000000; Some 697000000; Some 696000000; Some 696000000;
     Some 694000000; Some 693000000] /\
  ~ strictly_decreasing (time_lefts examples.rounded_snapshots).
Proof.
  assert (E : time_lefts examples.rounded_snapshots =
              [Some 699000000; Some 697000000; Some 696000000;
               Some 696000000; Some 694000000; Some 693000000]) by run.
  split; [exact E |]. rewrite E. intros (_ & _ & Hlt & _). lia.
Qed.


(** NaN as a sample: the next sample gives a snapshot whose smoothed speed is
    NaN, which is not strictly positive. *)
Lemma nan_sample_gives_nan_speed :
  exists s : Stats_t float,
    Stats examples.after_nan = Some s /\
    s_speed s = nan /\
    (0 <? s_speed s)%float = false /\
    (0 <? ewma.Value (speedAverage examples.after_nan))%float = false.
Proof.
  eexists. split; [run |]. split; [run |]. split; run.
Qed.


Lemma SetProgress_within_interval_witness :
  examples.throttled = set_value 0.25%float examples.reached_06 /\
  lastMeasurement examples.throttled =
    Some {| m_time := 0; m_value := 0.6%float |}.
Proof.
  pose proof (@SetProgress_within_interval float IEEE (list nat)
                500000 500000 0.25%float examples.reached_06
                {| m_time := 0; m_value := 0.6%float |}
                eq_refl eq_refl ltac:(vm_compute; reflexivity))
    as (Hsame & _ & _ & _ & _ & _ & _ & _ & Hanchor).
  split; [exact Hsame | exact Hanchor].
Defined.

End TrackerFacts.

(** ** Comparisons of binary64 *)

Module F64Facts.

Lemma SFcompare_swap (a b : spec_float) :
  a <> S754_nan -> b <> S754_nan ->
  SFcompare b a = option_map CompOpp (SFcompare a b).
Proof.
  intros Ha Hb.
  destruct a as [sa | sa | | sa ma ea]; try congruence;
    destruct b as [sb | sb | | sb mb eb]; try congruence;
    try (destruct sa; destruct sb; reflexivity);
    try (destruct sa; reflexivity); try (destruct sb; reflexivity).
  cbn. destruct sa, sb; try reflexivity.
  - rewrite (Z.compare_antisym eb ea).
    destruct (eb ?= ea)%Z; cbn; try reflexivity.
    now rewrite (Pos.compare_cont_antisym ma mb Eq).
  - rewrite (Z.compare_antisym eb ea).
    destruct (eb ?= ea)%Z; cbn; try reflexivity.
    now rewrite (Pos.compare_cont_antisym ma mb Eq).
Qed.

Lemma is_nan_false (x : float) :
  PrimFloat.is_nan x = false -> Prim2SF x <> S754_nan.
Proof.
  unfold PrimFloat.is_nan. rewrite eqb_spec. intros Hx E.
  rewrite E in Hx. discriminate.
Qed.

(** For numbers (not NaN), "not less" is "greater or equal". *)
Lemma not_ltb_leb (x y : float) :
  PrimFloat.is_nan x = false -> PrimFloat.is_nan y = false ->
  (x <? y)%float = false -> (y <=? x)%float = true.
Proof.
  intros Hx%is_nan_false Hy%is_nan_false.
  rewrite ltb_spec, leb_spec. unfold SFltb, SFleb.
  rewrite (SFcompare_swap Hx Hy).
  destruct (Prim2SF x) as [sx | sx | | sx mx ex]; try congruence;
    destruct (Prim2SF y) as [sy | sy | | sy my ey]; try congruence;
    cbn;
    repeat match goal with
           | |- context [match ?c with Eq => _ | Lt => _ | Gt => _ end] =>
               destruct c; cbn
           | |- context [if ?b then _ else _] => destruct b; cbn
           end; congruence.
Qed.

Lemma of_int_0 : F64.of_int 0 = 0%float.
Proof. vm_compute. reflexivity. Qed.

Lemma of_int_1 : F64.of_int 1 = 1%float.
Proof. vm_compute. reflexivity. Qed.

(** [clamp] in binary64. *)
Lemma clamp_IEEE (v : float) :
  tracker.clamp v =
  if (1 <? v)%float then 1%float
  else if (v <? 0)%float then 0%float else v.
Proof.
  unfold tracker.clamp. cbn [f64_ltb f64_of_int IEEE].
  rewrite of_int_0, of_int_1. reflexivity.
Qed.

(** A number is clamped into [0,1]. *)
Lemma clamp_in_range (v : float) :
  PrimFloat.is_nan v = false ->
  (0 <=? tracker.clamp v)%float = true /\
  (tracker.clamp v <=? 1)%float = true.
Proof.
  intros Hv. rewrite clamp_IEEE.
  destruct (1 <? v)%float eqn:H1; [split; reflexivity |].
  destruct (v <? 0)%float eqn:H0; [split; reflexivity |].
  split; apply not_ltb_leb; auto.
Qed.

(** NaN passes through [clamp]. *)
Lemma clamp_nan : tracker.clamp nan = nan.
Proof. vm_compute. reflexivity. Qed.

End F64Facts.

(** ** The progress value *)

Module ProgressFacts.
Import tracker client.

Section Generic.
Context {F : Type} `{Float64 F}.
Context {W : Type}.
Implicit Types (t : tracker.tracker F W) (w : W).

(** [SetProgress(v)] stores the clamp of [v], whatever [v] is. *)
Lemma SetProgress_stores_clamp (now now' : time.Time) (v : F) t :
  Progress (SetProgress now now' v t) = clamp v.
Proof. reflexivity. Qed.

(** No other call writes the progress value. *)
Lemma other_calls_keep_value (o : op) t w :
  is_SetProgress o = false ->
  Progress (fst (apply_op o (t, w))) = Progress t.
Proof.
  destruct o; cbn; try discriminate; intros _; try reflexivity.
  unfold Finish. cbn. destruct (lastMeasurement t); reflexivity.
Qed.

Lemma run_ops_keep_value (ops : list op) t w :
  forallb (fun o => negb (is_SetProgress o)) ops = true ->
  Progress (fst (run_ops ops (t, w))) = Progress t.
Proof.
  revert t w. induction ops as [| o ops IH]; intros t w Hops; [reflexivity |].
  cbn in Hops. apply andb_true_iff in Hops as [Ho Hops].
  apply negb_true_iff in Ho.
  cbn [run_ops fold_left]. destruct (apply_op o (t, w)) as [t1 w1] eqn:E.
  change (fold_left _ ops (t1, w1)) with (run_ops ops (t1, w1)).
  rewrite (IH t1 w1 Hops).
  change t1 with (fst (t1, w1)). rewrite <- E.
  now apply other_calls_keep_value.
Qed.

End Generic.

(** C5, as amended. [SetProgress(v)] stores the clamp of [v], and for every
    [v] that is a number (not NaN) the clamp lies in [0,1]: [Progress()]
    returns that value after the call and after any further calls other than
    [SetProgress]. In particular [SetProgress(-0.5)] then [Progress()] gives
    0, and [SetProgress(1.7)] then [Progress()] gives 1. *)
Theorem Progress_is_clamped (W : Type) (t : tracker.tracker float W) (w : W)
  (now now' : time.Time) (v : float) (rest : list op) :
  PrimFloat.is_nan v = false ->
  forallb (fun o => negb (is_SetProgress o)) rest = true ->
  let p :=
    Progress (fst (run_ops (CallSetProgress now now' v :: rest) (t, w))) in
  Progress (SetProgress now now' v t) = clamp v /\
  p = clamp v /\
  (0 <=? p)%float = true /\ (p <=? 1)%float = true /\
  Progress (SetProgress now now' (-0.5)%float t) = 0%float /\
  Progress (SetProgress now now' 1.7%float t) = 1%float.
Proof.
  intros Hv Hrest. cbv zeta.
  assert (Hp : Progress
                 (fst (run_ops (CallSetProgress now now' v :: rest) (t, w)))
               = clamp v).
  { cbn [run_ops fold_left apply_op].
    change (fold_left _ rest ?s) with (run_ops rest s).
    now rewrite run_ops_keep_value. }
  split; [reflexivity |]. split; [exact Hp |]. rewrite Hp.
  destruct (F64Facts.clamp_in_range v Hv) as [H0 H1].
  split; [exact H0 |]. split; [exact H1 |].
  split; rewrite SetProgress_stores_clamp; vm_compute; reflexivity.
Qed.

Lemma Progress_is_clamped_witness :
  Progress
    (fst (run_ops [CallSetProgress 0 0 0.25%float; CallPause; CallFinish 5]
                  (examples.fresh, []))) = 0.25%float.
Proof.
  destruct (@Progress_is_clamped (list nat) examples.fresh [] 0 0 0.25%float
              [CallPause; CallFinish 5] eq_refl eq_refl)
    as (_ & Hp & _).
  rewrite Hp. vm_compute. reflexivity.
Defined.

(** NaN is stored as it is, and the initial value of the options is not
    clamped: [Progress()] then returns NaN, which is not in [0,1], or 1.7. *)
Lemma Progress_outside_unit_interval :
  Progress examples.fed_nan = nan /\
  (0 <=? Progress examples.fed_nan)%float = false /\
  (Progress examples.fed_nan <=? 1)%float = false /\
  Progress examples.started_high = 1.7%float /\
  (Progress examples.started_high <=? 1)%float = false.
Proof.
  split; [vm_compute; reflexivity |]. split; [vm_compute; reflexivity |].
  split; [vm_compute; reflexivity |]. split; vm_compute; reflexivity.
Qed.

End ProgressFacts.

(** ** The bar's finish handler and redraw loop *)

Module BarFacts.
Import probar.

Section Generic.
Context {F : Type} `{Float64 F}.
Implicit Types (b : bar F) (w : world F) (e : event F).
















End Generic.

(** The run [examples.bar_events]: the handler's clear is printed once, by
    the first of the two invocations. *)
Lemma bar_example_output :
  option_map (fun w => (printed (the_bar w), writer w, panicked w))
    (run examples.bar_events
         (snd (New examples.bar_tracker examples.bar_opts))) =
  Some ([ Frame None 0%float EmptyString EmptyString 1%float;
          ClearLine 80; TextLine "hello";
          Frame None 0.5%float EmptyString EmptyString 1%float;
          ClearLine 80 ],
        Returned, false).
Proof. vm_compute. reflexivity. Qed.


End BarFacts.

(** ** The tracker in exact arithmetic *)

Unset Implicit Arguments.

Module ExactFacts.
Import tracker client.

Lemma ltb_true (x y : R) : Real.ltb x y = true <-> (x < y)%R.
Proof. unfold Real.ltb. destruct (Rlt_dec x y); split; intros; try discriminate; tauto. Qed.



(** In exact arithmetic the regression test of [lockedUpdateMeasurement],
    [valueDelta < 0], says that the clamped value is below the anchor's. *)
Lemma regression_is_less (v a : R) :
  (clamp v - a <? f64_of_int 0)%f64 = true <-> (clamp v < a)%R.
Proof.
  cbn [f64_ltb f64_sub f64_of_int Exact]. rewrite ltb_true. lra.
Qed.


Section Invariant.
Context {W : Type}.
Implicit Types (t : tracker.tracker R W) (w : W).






Lemma clock_ok_head (c : time.Time) (o : op (F := R) (W := W)) rest :
  clock_ok c (o :: rest) -> clock_ok c [o].
Proof. destruct o; cbn; tauto. Qed.





End Invariant.






Section Steady.
Context {W : Type}.
Implicit Types (t : tracker.tracker R W).










End Steady.



End ExactFacts.

(** ** Rounding of float64 operations and signs *)

Module F64Rounding.
Import F64.

(** A positive number of [d] binary digits lies between [2^(d-1)] and [2^d]. *)
Lemma digits2_pos_bounds (m : positive) :
  2 ^ (Zpos (digits2_pos m) - 1) <= Zpos m < 2 ^ Zpos (digits2_pos m).
Proof.
  induction m as [m IH | m IH |]; cbn [digits2_pos].
  - rewrite Pos2Z.inj_succ.
    replace (Z.succ (Zpos (digits2_pos m)) - 1) with (Z.succ (Zpos (digits2_pos m) - 1)) by lia.
    rewrite !Z.pow_succ_r by lia. lia.
  - rewrite Pos2Z.inj_succ.
    replace (Z.succ (Zpos (digits2_pos m)) - 1) with (Z.succ (Zpos (digits2_pos m) - 1)) by lia.
    rewrite !Z.pow_succ_r by lia. lia.
  - cbn. lia.
Qed.

Lemma iter_pos_Pos_iter {A} (f : A -> A) (p : positive) (x : A) :
  SpecFloat.iter_pos f p x = Pos.iter f x p.
Proof.
  revert x. induction p as [p IH | p IH |]; intros x; cbn [SpecFloat.iter_pos Pos.iter].
  - rewrite !IH. rewrite !Pos.iter_swap. reflexivity.
  - rewrite !IH. reflexivity.
  - reflexivity.
Qed.

(** One step of the right shift halves the mantissa. *)
Lemma shr_1_m (mrs : shr_record) :
  0 <= shr_m mrs -> shr_m (shr_1 mrs) = Z.div2 (shr_m mrs).
Proof.
  destruct mrs as [m r s]. cbn [shr_m]. intros Hm.
  destruct m as [| [p | p |] | p]; try reflexivity. lia.
Qed.

(** [n] steps of the right shift leave at least [2^(a-n)] of a mantissa that
    is at least [2^a]. *)
Lemma shr_iter_m (n : nat) (mrs : shr_record) (a : Z) :
  Z.of_nat n <= a -> 2 ^ a <= shr_m mrs ->
  2 ^ (a - Z.of_nat n) <= shr_m (Nat.iter n shr_1 mrs).
Proof.
  revert a. induction n as [| n IH]; intros a Ha Hm.
  - cbn. now rewrite Z.sub_0_r.
  - change (Nat.iter (S n) shr_1 mrs) with (shr_1 (Nat.iter n shr_1 mrs)).
    assert (H1 : 2 ^ (a - Z.of_nat n) <= shr_m (Nat.iter n shr_1 mrs)) by (apply IH; lia).
    rewrite shr_1_m.
    2:{ pose proof (Z.pow_pos_nonneg 2 (a - Z.of_nat n) ltac:(lia) ltac:(lia)). lia. }
    rewrite Z.div2_div. apply Z.div_le_lower_bound; [lia |].
    rewrite <- Z.pow_succ_r by lia.
    replace (Z.succ (a - Z.of_nat (S n))) with (a - Z.of_nat n) by lia. exact H1.
Qed.

(** Shifting right by fewer places than the number has digits leaves a positive number. *)
Lemma shr_positive (m : positive) (l : location) (e n : Z) :
  n < Zpos (digits2_pos m) ->
  1 <= shr_m (fst (shr (shr_record_of_loc (Zpos m) l) e n)).
Proof.
  intros Hn. pose proof (digits2_pos_bounds m) as [Hlo _].
  assert (Hrec : shr_m (shr_record_of_loc (Zpos m) l) = Zpos m)
    by (destruct l as [| []]; reflexivity).
  unfold shr. destruct n as [| p | p]; cbn [fst]; try (rewrite Hrec; lia).
  rewrite iter_pos_Pos_iter, Pos2Nat.inj_iter.
  pose proof (@shr_iter_m (Pos.to_nat p) (shr_record_of_loc (Zpos m) l)
                (Zpos (digits2_pos m) - 1)) as H.
  rewrite positive_nat_Z in H. specialize (H ltac:(lia) ltac:(rewrite Hrec; lia)).
  pose proof (Z.pow_pos_nonneg 2 (Zpos (digits2_pos m) - 1 - Zpos p) ltac:(lia) ltac:(lia)).
  unfold Nat.iter in *. lia.
Qed.

Lemma shr_exponent (mrs : shr_record) (e n : Z) :
  snd (shr mrs e n) = e + Z.max n 0.
Proof. unfold shr. destruct n; cbn [snd]; lia. Qed.

Lemma round_nearest_even_ge (m : Z) (l : location) :
  m <= round_nearest_even m l.
Proof.
  unfold round_nearest_even. destruct l as [| []]; try lia.
  destruct (Z.even m); lia.
Qed.

(** The exponent binary64 gives a number of [k] digits. *)
Lemma fexp64 (k : Z) : fexp prec emax k = Z.max (k - 53) (-1074).
Proof. reflexivity. Qed.

(** The result of rounding a positive mantissa is not zero when the first
    shift is by fewer places than the mantissa has digits. *)
Lemma binary_round_aux_nonzero (sx : bool) (m : positive) (e : Z) (l : location) :
  fexp prec emax (Zpos (digits2_pos m) + e) - e < Zpos (digits2_pos m) ->
  match binary_round_aux prec emax sx (Zpos m) e l with
  | S754_zero _ | S754_nan => False
  | S754_finite s _ _ | S754_infinity s => s = sx
  end.
Proof.
  intros Hn. unfold binary_round_aux, shr_fexp. cbn [Zdigits2].
  set (n := fexp prec emax (Zpos (digits2_pos m) + e) - e) in *.
  pose proof (shr_positive m l e n Hn) as H1.
  pose proof (shr_exponent (shr_record_of_loc (Zpos m) l) e n) as He1.
  destruct (shr (shr_record_of_loc (Zpos m) l) e n) as [mrs1 e1] eqn:E1.
  cbn [fst snd] in H1, He1.
  pose proof (round_nearest_even_ge (shr_m mrs1) (loc_of_shr_record mrs1)) as Hr.
  destruct (round_nearest_even (shr_m mrs1) (loc_of_shr_record mrs1)) as [| mr | mr] eqn:Er;
    try lia.
  cbn [Zdigits2].
  assert (He' : -1074 <= e1).
  { subst e1. unfold n. rewrite fexp64. lia. }
  assert (Hn2 : fexp prec emax (Zpos (digits2_pos mr) + e1) - e1 < Zpos (digits2_pos mr)).
  { rewrite fexp64. lia. }
  pose proof (shr_positive mr loc_Exact e1 _ Hn2) as H2.
  destruct (shr (shr_record_of_loc (Zpos mr) loc_Exact) e1
                (fexp prec emax (Zpos (digits2_pos mr) + e1) - e1)) as [mrs2 e2].
  cbn [fst] in H2.
  destruct (shr_m mrs2) as [| m2 | m2]; try lia.
  destruct (e2 <=? emax - prec); reflexivity.
Qed.

(** Whatever is rounded, the result has the given sign or is NaN. *)
Lemma binary_round_aux_sign (sx : bool) (m e : Z) (l : location) :
  match binary_round_aux prec emax sx m e l with
  | S754_zero s | S754_finite s _ _ | S754_infinity s => s = sx
  | S754_nan => True
  end.
Proof.
  unfold binary_round_aux.
  destruct (shr_fexp prec emax m e l) as [mrs1 e1].
  destruct (shr_fexp prec emax _ e1 loc_Exact) as [mrs2 e2].
  destruct (shr_m mrs2); try reflexivity; try exact I.
  destruct (e2 <=? emax - prec); reflexivity.
Qed.

Lemma positive_nonneg x : positive_or_nan x -> nonneg x.
Proof. destruct x; cbn; tauto. Qed.

Lemma nonneg_pz_nonneg x : nonneg_pz x -> nonneg x.
Proof. destruct x; cbn; tauto. Qed.

(** The exponent of a valid float is at least the least one, -1074. *)
Lemma valid_exponent (s : bool) (m : positive) (e : Z) :
  valid_binary (S754_finite s m e) = true -> -1074 <= e.
Proof.
  intros Hv. change (SpecFloat.bounded prec emax m e = true) in Hv.
  unfold SpecFloat.bounded in Hv. apply andb_true_iff in Hv as [Hc _].
  unfold canonical_mantissa in Hc. apply Z.eqb_eq in Hc.
  rewrite fexp64 in Hc. lia.
Qed.

(** Rounding a nonzero mantissa at an exponent of at least -1074 gives a
    nonzero float of the same sign: a finite one or an infinity. *)
Lemma binary_round_nonzero (sx : bool) (m : positive) (e : Z) :
  -1074 <= e ->
  match binary_round prec emax sx m e with
  | S754_zero _ | S754_nan => False
  | S754_finite s _ _ | S754_infinity s => s = sx
  end.
Proof.
  intros He. unfold binary_round.
  destruct (shl_align m e (fexp prec emax (Zpos (digits2_pos m) + e))) as [mz ez] eqn:Ea.
  apply binary_round_aux_nonzero.
  assert (Hez : -1074 <= ez).
  { unfold shl_align in Ea.
    destruct (fexp prec emax (Zpos (digits2_pos m) + e) - e) eqn:Ed;
      injection Ea as <- <-; try lia.
    rewrite fexp64. lia. }
  rewrite fexp64. lia.
Qed.

Lemma binary_round_nonneg (p : positive) (e : Z) :
  nonneg_pz (binary_round prec emax false p e).
Proof.
  unfold binary_round.
  destruct (shl_align p e _) as [mz ez].
  pose proof (binary_round_aux_sign false (Zpos mz) ez loc_Exact) as Hs.
  destruct (binary_round_aux prec emax false (Zpos mz) ez loc_Exact); cbn; auto.
Qed.

Lemma binary_normalize_nonneg (z e : Z) :
  0 <= z -> nonneg_pz (binary_normalize prec emax z e false).
Proof.
  intros Hz. destruct z as [| p | p]; cbn [binary_normalize]; try lia.
  - reflexivity.
  - apply binary_round_nonneg.
Qed.

Lemma SFadd_nonneg_pz (x y : spec_float) :
  nonneg_pz x -> nonneg_pz y -> nonneg_pz (SF64add x y).
Proof.
  destruct x as [sx | sx | | sx mx ex], y as [sy | sy | | sy my ey];
    cbn [nonneg_pz]; intros Hx Hy; subst; cbn; auto.
  apply binary_round_nonneg.
Qed.

Lemma SFdiv_nonneg (x y : spec_float) :
  nonneg x -> nonneg_pz y -> nonneg (SF64div x y).
Proof.
  destruct x as [sx | sx | | sx mx ex], y as [sy | sy | | sy my ey];
    cbn [nonneg nonneg_pz]; intros Hx Hy; subst; cbn [SF64div SFdiv xorb nonneg]; auto;
    try (destruct sx; reflexivity).
  destruct (SFdiv_core_binary prec emax (Zpos mx) ex (Zpos my) ey) as [[mz ez] lz].
  pose proof (binary_round_aux_sign false mz ez lz) as Hs.
  destruct (binary_round_aux prec emax false mz ez lz); cbn; auto.
Qed.

Lemma SFdiv_nonneg_pz (x y : spec_float) :
  nonneg_pz x -> nonneg_pz y -> nonneg_pz (SF64div x y).
Proof.
  destruct x as [sx | sx | | sx mx ex], y as [sy | sy | | sy my ey];
    cbn [nonneg_pz]; intros Hx Hy; subst; cbn [SF64div SFdiv xorb nonneg_pz]; auto.
  destruct (SFdiv_core_binary prec emax (Zpos mx) ex (Zpos my) ey) as [[mz ez] lz].
  pose proof (binary_round_aux_sign false mz ez lz) as Hs.
  destruct (binary_round_aux prec emax false mz ez lz); cbn; auto.
Qed.

Lemma SFltb_zero_false (x : spec_float) :
  SFltb x (S754_zero false) = false -> nonneg x.
Proof.
  destruct x as [sx | sx | | sx mx ex]; cbn; auto; destruct sx; cbn; congruence.
Qed.

Lemma SFeqb_zero_false (x : spec_float) :
  nonneg x -> SFeqb x (S754_zero false) = false -> positive_or_nan x.
Proof.
  destruct x as [sx | sx | | sx mx ex]; cbn; auto. discriminate.
Qed.

Lemma SFeqb_zero_true (x : spec_float) :
  positive_or_nan x -> SFeqb x (S754_zero false) = false.
Proof.
  destruct x as [sx | sx | | sx mx ex]; cbn; auto; try tauto; intros ->; reflexivity.
Qed.

Lemma SFmul_nonneg (x : spec_float) (my : positive) (ey : Z) :
  nonneg x -> nonneg (SF64mul x (S754_finite false my ey)).
Proof.
  destruct x as [sx | sx | | sx mx ex]; cbn [nonneg]; intros Hx; subst;
    cbn [SF64mul SFmul xorb nonneg]; auto.
  pose proof (binary_round_aux_sign false (Zpos (mx * my)) (ex + ey) loc_Exact) as Hs.
  destruct (binary_round_aux prec emax false (Zpos (mx * my)) (ex + ey) loc_Exact);
    cbn; auto.
Qed.

(** The sum of a float that is not negative and one that is strictly positive
    (or NaN) is strictly positive (or NaN). *)
Lemma SFadd_positive (x y : spec_float) :
  valid_binary x = true -> valid_binary y = true ->
  nonneg x -> positive_or_nan y -> positive_or_nan (SF64add x y).
Proof.
  intros Vx Vy.
  destruct x as [sx | sx | | sx mx ex], y as [sy | sy | | sy my ey];
    cbn [nonneg positive_or_nan]; intros Hx Hy; subst; try tauto;
    cbn [SF64add SFadd positive_or_nan]; auto.
  cbn [cond_Zopp Z.add binary_normalize].
  apply valid_exponent in Vx, Vy.
  pose proof (binary_round_nonzero false
                (fst (shl_align mx ex (Z.min ex ey)) + fst (shl_align my ey (Z.min ex ey)))
                (Z.min ex ey) ltac:(lia)) as Hs.
  destruct (binary_round prec emax false _ (Z.min ex ey)); cbn; auto.
Qed.

Lemma pow2_digits_lower (m : positive) (k : Z) :
  0 <= k -> 2 ^ k <= Zpos m -> k < Zpos (digits2_pos m).
Proof.
  intros Hk Hm. pose proof (digits2_pos_bounds m) as [_ Hhi].
  destruct (Z_lt_le_dec k (Zpos (digits2_pos m))) as [Hlt | Hge]; [exact Hlt |].
  pose proof (Z.pow_le_mono_r 2 (Zpos (digits2_pos m)) k ltac:(lia) Hge). lia.
Qed.

(** Multiplying by 1 - decay, which is 6004799503160662 * 2^-53 in binary64,
    does not round a positive number to zero. *)
Lemma SFmul_positive (x : spec_float) :
  valid_binary x = true -> positive_or_nan x ->
  positive_or_nan (SF64mul x (S754_finite false 6004799503160662 (-53))).
Proof.
  intros Vx.
  destruct x as [sx | sx | | sx mx ex]; cbn [positive_or_nan]; intros Hx; subst;
    try tauto; cbn [SF64mul SFmul xorb positive_or_nan]; auto.
  apply valid_exponent in Vx.
  pose proof (binary_round_aux_nonzero false (mx * 6004799503160662)
                (ex + -53) loc_Exact) as Hs.
  rewrite fexp64 in Hs.
  destruct (Pos.eq_dec mx 1) as [-> | Hm1].
  - destruct (Z.eq_dec ex (-1074)) as [-> | He]; [vm_compute; reflexivity |].
    change (Zpos (digits2_pos (1 * 6004799503160662))) with 53 in Hs.
    specialize (Hs ltac:(lia)).
    destruct (binary_round_aux prec emax false _ _ loc_Exact); cbn; auto.
  - assert (Hd : 53 < Zpos (digits2_pos (mx * 6004799503160662))).
    { apply pow2_digits_lower; [lia |].
      rewrite Pos2Z.inj_mul. assert (2 <= Zpos mx) by lia.
      change (2 ^ 53) with 9007199254740992. lia. }
    specialize (Hs ltac:(lia)).
    destruct (binary_round_aux prec emax false _ _ loc_Exact); cbn; auto.
Qed.

(** The conversion of an integer that is not negative is not negative. *)
Lemma of_int_nonneg (z : Z) : 0 <= z -> nonneg_pz (Prim2SF (F64.of_int z)).
Proof.
  intros Hz. unfold F64.of_int.
  destruct (z =? - 2 ^ 63) eqn:E1; [apply Z.eqb_eq in E1; lia |].
  destruct (z <? 0) eqn:E2; [apply Z.ltb_lt in E2; lia |].
  rewrite of_uint63_spec. apply binary_normalize_nonneg.
  pose proof (Uint63.to_Z_bounded (Uint63.of_Z z)). lia.
Qed.

(** Writing a mantissa with a lesser exponent multiplies it by a power of 2. *)
Lemma shl_align_value (m : positive) (e ez : Z) :
  ez <= e -> Zpos (fst (shl_align m e ez)) = Zpos m * 2 ^ (e - ez).
Proof.
  intros He. unfold shl_align.
  destruct (ez - e) as [| d | d] eqn:Ed; cbn [fst]; try lia.
  - replace (e - ez) with 0 by lia. cbn. lia.
  - replace (e - ez) with (Zpos d) by lia.
    change (Pos.iter xO m d) with (shift_pos d m).
    rewrite shift_pos_correct. cbn [Z.pow]. lia.
Qed.

(** The mantissa of a valid float has at most 53 digits, and exactly 53 when
    the exponent is above the least one. *)
Lemma valid_digits (s : bool) (m : positive) (e : Z) :
  valid_binary (S754_finite s m e) = true ->
  -1074 <= e /\ Zpos (digits2_pos m) <= 53 /\
  (-1074 < e -> Zpos (digits2_pos m) = 53).
Proof.
  intros Hv. change (SpecFloat.bounded prec emax m e = true) in Hv.
  unfold SpecFloat.bounded in Hv. apply andb_true_iff in Hv as [Hc _].
  unfold canonical_mantissa in Hc. apply Z.eqb_eq in Hc.
  rewrite fexp64 in Hc. lia.
Qed.

(** Of two valid positive floats, the one that [SFcompare] finds smaller has
    the smaller mantissa once both are written with the lesser exponent. *)
Lemma aligned_lt (mx my : positive) (ex ey : Z) :
  valid_binary (S754_finite false mx ex) = true ->
  valid_binary (S754_finite false my ey) = true ->
  SFcompare (S754_finite false mx ex) (S754_finite false my ey) = Some Lt ->
  Zpos (fst (shl_align mx ex (Z.min ex ey))) <
  Zpos (fst (shl_align my ey (Z.min ex ey))).
Proof.
  intros Vx Vy Hc.
  destruct (valid_digits _ _ _ Vx) as (Hex & Hdx & _).
  destruct (valid_digits _ _ _ Vy) as (Hey & _ & Hdy).
  pose proof (digits2_pos_bounds mx) as [_ Hxhi].
  pose proof (digits2_pos_bounds my) as [Hylo _].
  rewrite !shl_align_value by lia.
  cbn in Hc. destruct (ex ?= ey) eqn:Ee.
  - apply Z.compare_eq in Ee. subst ey.
    rewrite Z.min_id, Z.sub_diag, Z.pow_0_r.
    injection Hc as Hc. change (Pos.compare mx my = Lt) in Hc.
    assert (Zpos mx < Zpos my) by (apply Pos2Z.pos_lt_pos; exact Hc). lia.
  - assert (Hlt : ex < ey) by exact Ee.
    rewrite Z.min_l, Z.sub_diag, Z.pow_0_r by lia.
    specialize (Hdy ltac:(lia)). rewrite Hdy in Hylo.
    assert (Hx : Zpos mx < 2 ^ 53).
    { eapply Z.lt_le_trans; [exact Hxhi |]. apply Z.pow_le_mono_r; lia. }
    assert (Hp : 2 ^ 1 <= 2 ^ (ey - ex)) by (apply Z.pow_le_mono_r; lia).
    change (2 ^ (53 - 1)) with 4503599627370496 in Hylo.
    change (2 ^ 53) with 9007199254740992 in Hx.
    change (2 ^ 1) with 2 in Hp. nia.
  - discriminate.
Qed.

(** Two negative floats compare as their opposites do, the other way round. *)
Lemma SFcompare_negatives (mx my : positive) (ex ey : Z) :
  SFcompare (S754_finite true mx ex) (S754_finite true my ey) =
  SFcompare (S754_finite false my ey) (S754_finite false mx ex).
Proof.
  cbn. rewrite (Z.compare_antisym ex ey).
  destruct (ex ?= ey); cbn; try reflexivity.
  now rewrite (Pos.compare_cont_antisym mx my Eq).
Qed.

(** A negative mantissa is normalised to a negative float. *)
Lemma binary_normalize_negative (z e : Z) :
  z < 0 -> -1074 <= e ->
  SFltb (binary_normalize prec emax z e false) (S754_zero false) = true.
Proof.
  intros Hz He. destruct z as [| p | p]; try lia. cbn [binary_normalize].
  pose proof (binary_round_nonzero true p e He) as H.
  destruct (binary_round prec emax true p e); try contradiction; subst;
    reflexivity.
Qed.

(** On valid floats, [x < y] makes [x - y] negative. *)
Lemma SFsub_negative (x y : spec_float) :
  valid_binary x = true -> valid_binary y = true ->
  SFltb x y = true -> SFltb (SFsub prec emax x y) (S754_zero false) = true.
Proof.
  intros Vx Vy. unfold SFltb at 1.
  destruct (SFcompare x y) as [[| |] |] eqn:Hc; try discriminate. intros _.
  destruct x as [sx | sx | | sx mx ex], y as [sy | sy | | sy my ey];
    try discriminate;
    try (destruct sx; try discriminate);
    try (destruct sy; try discriminate);
    try reflexivity.
  - (* both negative *)
    rewrite SFcompare_negatives in Hc.
    pose proof (aligned_lt _ _ _ _ Vy Vx Hc) as Hlt.
    destruct (valid_digits _ _ _ Vx) as (Hex & _).
    destruct (valid_digits _ _ _ Vy) as (Hey & _).
    cbn [SFsub cond_Zopp]. rewrite (Z.min_comm ey ex) in Hlt.
    apply binary_normalize_negative; lia.
  - (* negative, positive *)
    destruct (valid_digits _ _ _ Vx) as (Hex & _).
    destruct (valid_digits _ _ _ Vy) as (Hey & _).
    cbn [SFsub cond_Zopp]. apply binary_normalize_negative; lia.
  - (* both positive *)
    pose proof (aligned_lt _ _ _ _ Vx Vy Hc) as Hlt.
    destruct (valid_digits _ _ _ Vx) as (Hex & _).
    destruct (valid_digits _ _ _ Vy) as (Hey & _).
    cbn [SFsub cond_Zopp]. apply binary_normalize_negative; lia.
Qed.

(** On float64: when [x < y] holds, [x - y < 0] holds. *)
Lemma lt_sub_negative (x y : float) :
  (x <? y)%float = true -> (x - y <? 0)%float = true.
Proof.
  rewrite !FloatAxioms.ltb_spec, sub_spec.
  change (Prim2SF 0) with (S754_zero false).
  apply SFsub_negative; apply Prim2SF_valid.
Qed.

End F64Rounding.

(** ** The tracker on float64 *)

Module IEEEFacts.
Import tracker client F64 F64Rounding.

Lemma Prim2SF_zero : Prim2SF (f64_of_int (F := float) 0) = S754_zero false.
Proof. vm_compute. reflexivity. Qed.

Lemma Prim2SF_decay :
  Prim2SF (ewma.decay (F := float)) = S754_finite false 6004799503160661 (-54).
Proof. vm_compute. reflexivity. Qed.

Lemma Prim2SF_one_minus_decay :
  Prim2SF (f64_of_int 1 - ewma.decay)%f64 =
  S754_finite false 6004799503160662 (-53).
Proof. vm_compute. reflexivity. Qed.

Lemma Seconds_nonneg (d : time.Duration) :
  0 <= d -> nonneg_pz (Prim2SF (time.Seconds (F := float) d)).
Proof.
  intros Hd. unfold time.Seconds. cbn [f64_add f64_div f64_of_int IEEE].
  rewrite add_spec, div_spec.
  apply SFadd_nonneg_pz.
  - apply of_int_nonneg. apply Z.quot_pos; [exact Hd | reflexivity].
  - apply SFdiv_nonneg_pz.
    + apply of_int_nonneg. apply Z.rem_nonneg; [| exact Hd]. vm_compute. discriminate.
    + apply of_int_nonneg. vm_compute. discriminate.
Qed.

Lemma eqb_zero_false (x : float) :
  nonneg (Prim2SF x) -> (x == f64_of_int 0)%f64 = false ->
  positive_or_nan (Prim2SF x).
Proof.
  cbn [f64_eqb IEEE]. rewrite FloatAxioms.eqb_spec, Prim2SF_zero.
  apply SFeqb_zero_false.
Qed.

Lemma positive_not_zero (x : float) :
  positive_or_nan (Prim2SF x) -> (x == f64_of_int 0)%f64 = false.
Proof.
  cbn [f64_eqb IEEE]. rewrite FloatAxioms.eqb_spec, Prim2SF_zero.
  apply SFeqb_zero_true.
Qed.

Lemma positive_or_nan_float (x : float) :
  positive_or_nan (Prim2SF x) ->
  PrimFloat.is_nan x = true \/ (0 <? x)%float = true.
Proof.
  unfold PrimFloat.is_nan. rewrite FloatAxioms.eqb_spec, FloatAxioms.ltb_spec.
  change (Prim2SF 0) with (S754_zero false).
  destruct (Prim2SF x) as [s | s | | s m e]; cbn; intros Hx; subst; auto; tauto.
Qed.

Lemma ltb_zero_false (x : float) :
  (x <? f64_of_int 0)%f64 = false -> nonneg (Prim2SF x).
Proof.
  cbn [f64_ltb IEEE]. rewrite FloatAxioms.ltb_spec, Prim2SF_zero.
  apply SFltb_zero_false.
Qed.

(** What [Add] does to the signs. *)
Lemma Add_signs (x : float) (a : ewma.average float) :
  nonneg (Prim2SF x) -> nonneg (Prim2SF (ewma.Value a)) ->
  nonneg (Prim2SF (ewma.Value (ewma.Add x a))) /\
  ((x == f64_of_int 0)%f64 = false ->
   positive_or_nan (Prim2SF (ewma.Value (ewma.Add x a)))).
Proof.
  intros Hx Ha. unfold ewma.Add, ewma.Value in *.
  destruct (ewma.value a == f64_of_int 0)%f64 eqn:Ez; cbn [ewma.value].
  - split; [exact Hx | now apply eqb_zero_false].
  - assert (Hp : positive_or_nan
                   (Prim2SF (x * ewma.decay + ewma.value a * (f64_of_int 1 - ewma.decay))%f64)).
    { cbn [f64_add f64_mul IEEE]. rewrite add_spec, !mul_spec.
      apply SFadd_positive.
      - rewrite <- mul_spec. apply Prim2SF_valid.
      - rewrite <- mul_spec. apply Prim2SF_valid.
      - rewrite Prim2SF_decay. now apply SFmul_nonneg.
      - rewrite Prim2SF_one_minus_decay. apply SFmul_positive.
        + apply Prim2SF_valid.
        + now apply eqb_zero_false. }
    split; [now apply positive_nonneg | intros _; exact Hp].
Qed.

Section Invariant.
Context {W : Type}.
Implicit Types (t : tracker.tracker float W) (w : W).

Lemma sane64_later (c c' : time.Time) t : c <= c' -> sane64 c t -> sane64 c' t.
Proof.
  intros Hc (Ha & Hs). split; [| exact Hs].
  destruct (lastMeasurement t); [lia | exact I].
Qed.

Lemma reset_sane64 (c : time.Time) t : sane64 c (lockedResetMeasurement t).
Proof.
  split; [exact I |]. cbn [speedAverage speed lockedResetMeasurement
    set_secondsLeftAverage set_speedAverage set_maxSpeed set_minSpeed
    set_speed set_lastMeasurement ewma.Value ewma.New ewma.value].
  rewrite Prim2SF_zero. split; [exact I |].
  intros Hs. vm_compute in Hs. discriminate.
Qed.

Lemma Since_nonneg64 (now t0 : time.Time) : t0 <= now -> 0 <= time.Since now t0.
Proof.
  intros Hle. unfold time.Since, time.Sub, time.minDuration, time.maxDuration,
    Int64.min, Int64.max.
  destruct (now - t0 <? - 2 ^ 63) eqn:E1; [apply Z.ltb_lt in E1; lia |].
  destruct (2 ^ 63 - 1 <? now - t0) eqn:E2; lia.
Qed.

Lemma update_sane64 (c now now' : time.Time) (v : float) t :
  c <= now -> now <= now' -> sane64 c t ->
  sane64 now' (lockedUpdateMeasurement now now' v t).
Proof.
  intros Hc Hn Hs. pose proof Hs as (Ha & Hv & Hp).
  unfold lockedUpdateMeasurement.
  destruct (paused t).
  { pose proof (reset_sane64 now' t) as (_ & Hv' & Hp').
    split; [cbn; lia |]. split; assumption. }
  destruct (lastMeasurement t) as [last |] eqn:Ea.
  2:{ split; [cbn; lia |]. split; assumption. }
  set (sinceLast := time.Since now' (m_time last)).
  assert (Hsl : 0 <= sinceLast) by (apply Since_nonneg64; lia).
  destruct (sinceLast <? measurementInterval t) eqn:El.
  { apply sane64_later with c; [lia | exact Hs]. }
  destruct (v - m_value last <? f64_of_int 0)%f64 eqn:Ed.
  { apply reset_sane64. }
  apply ltb_zero_false in Ed.
  set (sp := ((v - m_value last) / time.Seconds sinceLast)%f64).
  assert (Hsp : nonneg (Prim2SF sp)).
  { unfold sp. cbn [f64_div IEEE]. rewrite div_spec.
    apply SFdiv_nonneg; [exact Ed | now apply Seconds_nonneg]. }
  cbn [speed set_speed speedAverage set_speedAverage set_duration].
  destruct (Add_signs sp (speedAverage t) Hsp Hv) as [Hn' Hp'].
  split; [cbn; lia |].
  repeat match goal with |- context [if ?b then _ else _] => destruct b end;
    (split; [exact Hn' | exact Hp']).
Qed.

Lemma apply_op_sane64 (c : time.Time) (o : op) t w :
  sane64 c t -> clock_ok c [o] ->
  exists c', c <= c' /\ sane64 c' (fst (apply_op o (t, w))) /\
             forall rest, clock_ok c (o :: rest) -> clock_ok c' rest.
Proof.
  intros Hs Hck. pose proof Hs as (Ha & Hv).
  destruct o as [now now' v | | | cb | now]; cbn [apply_op fst].
  - destruct Hck as (Hc & Hn & _). exists now'. split; [lia |]. split.
    + unfold SetProgress.
      destruct (@update_sane64 c now now' (clamp v) t Hc Hn Hs) as (Ha' & Hv').
      split; [exact Ha' | exact Hv'].
    + intros rest Hr. apply Hr.
  - exists c. split; [lia |]. split; [apply reset_sane64 | auto].
  - exists c. split; [lia |]. split; [apply reset_sane64 | auto].
  - exists c. split; [lia |]. split; [exact Hs | auto].
  - destruct Hck as (Hc & _). exists now. split; [exact Hc |]. split.
    + unfold Finish. cbn [fst snd].
      destruct (lastMeasurement t) eqn:Ea.
      * split; [exact I | exact Hv].
      * apply sane64_later with c; [exact Hc | exact Hs].
    + intros rest Hr. apply Hr.
Qed.

Lemma run_ops_sane64 (ops : list op) (c : time.Time) t w :
  sane64 c t -> clock_ok c ops ->
  exists c', sane64 c' (fst (run_ops ops (t, w))).
Proof.
  revert c t w. induction ops as [| o ops IH]; intros c t w Hs Hck.
  - exists c. exact Hs.
  - assert (Hh : clock_ok c [o]) by (destruct o; cbn in *; tauto).
    destruct (@apply_op_sane64 c o t w Hs Hh) as (c' & _ & Hs' & Hnext).
    cbn [run_ops fold_left].
    destruct (apply_op o (t, w)) as [t1 w1].
    apply (IH c' t1 w1 Hs' (Hnext _ Hck)).
Qed.

Lemma New_sane64 (now : time.Time) (opts : tracker.Opts float) :
  sane64 now (New (W := W) now opts).
Proof.
  split; [exact I |]. cbn [New speedAverage speed ewma.Value ewma.New ewma.value].
  rewrite Prim2SF_zero. split; [exact I |].
  intros Hs. vm_compute in Hs. discriminate.
Qed.

(** C10, as amended. On float64 as the code computes, on a tracker made by
    [New] and driven by any calls of [SetProgress], [Pause], [Resume],
    [OnFinish] and [Finish] with any values (NaN and infinities included)
    while the clock does not go back: whenever [Stats()] returns a snapshot,
    its [Speed()] is the smoothed speed average, that average is not zero, so
    the division [(1 - value) / speedAverage.Value()] is not by zero, and it
    is either NaN or strictly positive. *)
Theorem speed_average_never_zero (now0 : time.Time) (opts : tracker.Opts float)
  (ops : list op) w :
  clock_ok now0 ops ->
  let t := fst (run_ops ops (New now0 opts, w)) in
  forall s : Stats_t float,
    Stats t = Some s ->
    s_speed s = ewma.Value (speedAverage t) /\
    (s_speed s =? 0)%float = false /\
    (PrimFloat.is_nan (s_speed s) = true \/ (0 <? s_speed s)%float = true).
Proof.
  intros Hck t s Hs.
  destruct (@run_ops_sane64 ops now0 (New now0 opts) w (New_sane64 now0 opts) Hck)
    as (c' & _ & _ & Hp).
  fold t in Hp. unfold Stats in Hs.
  destruct (speed t == f64_of_int 0)%f64 eqn:E; [discriminate |].
  destruct (lastMeasurement t); [| discriminate].
  cbn [orb] in Hs. injection Hs as <-. cbn [s_speed].
  specialize (Hp eq_refl).
  split; [reflexivity |]. split.
  - apply positive_not_zero in Hp. cbn [f64_eqb IEEE] in Hp.
    rewrite <- Hp. f_equal.
  - now apply positive_or_nan_float.
Qed.

End Invariant.

(** The regression test of [lockedUpdateMeasurement], [valueDelta < 0], is
    passed when the clamped value is below the anchor's. *)
Lemma less_is_regression (v a : float) :
  (clamp v <? a)%f64 = true ->
  (clamp v - a <? f64_of_int 0)%f64 = true.
Proof.
  cbn [f64_ltb f64_sub f64_of_int IEEE]. rewrite F64Facts.of_int_0.
  apply lt_sub_negative.
Qed.

(** C2, as amended. On float64 as the code computes, on an unpaused tracker
    holding the anchor [m], a [SetProgress(v)] measured at least one
    measurement interval after the anchor, whose clamped value is strictly
    less than the anchor's value, adds the elapsed time to the duration and
    performs a full reset: the anchor is cleared (the sample is kept as the
    current value only, not as an anchor), the speed is zeroed, the extrema
    and both averages are reset; no rate is emitted ([Stats()] is nil), and
    whatever sample comes next becomes the anchor. *)
Theorem SetProgress_regression_resets {W : Type}
  (now now' : time.Time) (v : float) (t : tracker.tracker float W)
  (m : measurement float) :
  paused t = false ->
  lastMeasurement t = Some m ->
  measurementInterval t <= time.Since now' (m_time m) ->
  (clamp v <? m_value m)%f64 = true ->
  let t' := SetProgress now now' v t in
  lastMeasurement t' = None /\
  value t' = clamp v /\
  duration t' = Int64.add (duration t) (time.Since now' (m_time m)) /\
  speed t' = f64_of_int 0 /\
  minSpeed t' = MaxFloat64 /\ maxSpeed t' = f64_of_int 0 /\
  speedAverage t' = ewma.New (f64_of_int 0) /\
  secondsLeftAverage t' = ewma.New (f64_of_int 0) /\
  Stats t' = None /\
  forall (n n' : time.Time) (v2 : float),
    lastMeasurement (SetProgress n n' v2 t') =
    Some {| m_time := n; m_value := clamp v2 |}.
Proof.
  intros Hp Ha Hi Hlt.
  exact (@TrackerFacts.SetProgress_negative_delta_resets float IEEE W
           now now' v t m Hp Ha Hi (less_is_regression _ _ Hlt)).
Qed.

Lemma SetProgress_regression_resets_witness :
  lastMeasurement examples.regressed = None /\
  Stats examples.regressed = None.
Proof.
  pose proof (@SetProgress_regression_resets (list nat)
                (10 * time.Millisecond) (10 * time.Millisecond) 0.3%float
                examples.reached_06
                {| m_time := 0; m_value := 0.6%float |}
                eq_refl eq_refl ltac:(vm_compute; discriminate) eq_refl)
    as (Hanchor & _ & _ & _ & _ & _ & _ & _ & Hstats & _).
  split; [exact Hanchor | exact Hstats].
Defined.

Lemma speed_average_never_zero_witness :
  exists s : Stats_t float,
    Stats (fst (run_ops examples.halfway_ops
                        (New 0 (examples.opts_with time.Millisecond 0%float),
                         @nil nat))) = Some s /\
    (s_speed s =? 0)%float = false.
Proof.
  eexists. split; [run |].
  destruct (@speed_average_never_zero (list nat) 0
              (examples.opts_with time.Millisecond 0%float)
              examples.halfway_ops nil ltac:(cbn; lia) _ ltac:(run))
    as (_ & Hz & _).
  exact Hz.
Defined.

End IEEEFacts.
